(** * The Hello World sample plugin

    A shallow embedding of [samples/hello-world-plugin/hello-world/main.py]
    and the properties its specification states about it.

    The plugin is a Python class with three instance attributes and four
    methods.  Its methods print to standard output, ask the operating
    system about files, call into the host's user interface and build new
    dictionaries.  All of that is made explicit here: a method is a
    function from a [World] to an [outcome] and the next [World]. *)

From stdpp Require Import gmap strings list fin_maps.
From Stdlib Require Import ZArith.

#[local] Set Warnings "-clear-no-such-hyp".

Open Scope string_scope.
Open Scope list_scope.

(** ** Python values *)

(** The values the plugin stores in the dictionaries it returns. *)
Inductive pyval : Type :=
| VStr (s : string)
| VInt (n : Z).

(** A [dict] with [str] keys. *)
Abbreviation dict := (gmap string pyval).

(** A dictionary display [{k1: v1, ..., kn: vn}] evaluates its items from
    left to right and stores them one after the other, so a later item
    replaces an earlier one with the same key. *)
Definition dict_display (items : list (string * pyval)) : dict :=
  foldl (fun d kv => <[kv.1 := kv.2]> d) ∅ items.
Arguments dict_display : simpl never.

(** The exceptions that can occur in the modelled code. *)
Inductive exn : Type :=
| AttributeError (attr : string)
| FileNotFoundError (path : string)
| HostError (msg : string).

(** ** The host interface *)

(** Modelled from the spec: the type [PluginAPI] of [src.plugins.core], which
    is imported by the plugin and not part of this file.  The specification
    calls it "an injected API object optionally exposing a UI capability with
    a show_notification(title, message, type) operation".  The operation
    belongs to the host: all the plugin can observe of it is whether the call
    comes back or raises. *)
Record UI : Type := {
  show_notification : string -> string -> string -> option exn
}.

(** An attribute of an object is either not there at all ([hasattr] is
    [False]) or bound to a value, where the value [None] is Python's [None]. *)
Inductive attribute (A : Type) : Type :=
| NoAttribute
| Attribute (v : option A).
Arguments NoAttribute {A}.
Arguments Attribute {A} v.

(** The API object: all the plugin looks at is its attribute [ui]. *)
Record PluginAPI : Type := {
  ui : attribute UI
}.

(** ** The plugin object *)

(** The instance attributes assigned by [__init__].  [api] is [None] or the
    API object the host has stored there. *)
Record HelloWorldPlugin : Type := {
  name : string;
  version : string;
  api : option PluginAPI
}.

(** What the outside world sees of a run. *)
Inductive event : Type :=
| Print (line : string)
| ShowNotification (title message type : string).

(** Dictionaries are objects: each has an identity, its index in the heap. *)
Definition loc : Type := nat.

Record World : Type := {
  self : HelloWorldPlugin;
  files : gmap string Z;   (* the paths [os.stat] succeeds on, with [st_size] *)
  heap : list dict;        (* the dictionaries allocated so far *)
  trace : list event       (* output and host calls, oldest first *)
}.

(** ** Computations *)

(** A call either returns a value or raises; what it did to the world before
    raising stays done. *)
Inductive outcome (A : Type) : Type :=
| Returns (a : A)
| Raises (e : exn).
Arguments Returns {A} a.
Arguments Raises {A} e.

Definition Py (A : Type) : Type := World -> outcome A * World.

#[export] Instance Py_ret : MRet Py := fun A a w => (Returns a, w).

#[export] Instance Py_bind : MBind Py := fun A B k m w =>
  match m w with
  | (Returns a, w') => k a w'
  | (Raises e, w') => (Raises e, w')
  end.

Definition raise {A : Type} (e : exn) : Py A := fun w => (Raises e, w).

(** *** Primitives *)

(** The world after one more event. *)
Definition log (e : event) (w : World) : World :=
  {| self := self w; files := files w; heap := heap w;
     trace := trace w ++ [e] |}.

Definition emit (e : event) : Py unit := fun w => (Returns tt, log e w).

(** [print(line)]: standard output takes the line. *)
Definition print (line : string) : Py unit := emit (Print line).

(** Reading an attribute of [self]. *)
Definition getattr_self {A : Type} (field : HelloWorldPlugin -> A) : Py A :=
  fun w => (Returns (field (self w)), w).

(** [os.path.exists(path)]: whether [os.stat(path)] succeeds. *)
Definition os_path_exists (path : string) : Py bool := fun w =>
  (Returns (bool_decide (is_Some (files w !! path))), w).

(** [os.path.getsize(path)]: [os.stat(path).st_size], which raises for a
    path that [os.stat] fails on.  Nothing else changes the files while a
    method runs, so both functions see the same [files]. *)
Definition os_path_getsize (path : string) : Py Z := fun w =>
  match files w !! path with
  | Some size => (Returns size, w)
  | None => (Raises (FileNotFoundError path), w)
  end.

(** The world after one more dictionary has been allocated. *)
Definition alloc (d : dict) (w : World) : World :=
  {| self := self w; files := files w; heap := heap w ++ [d];
     trace := trace w |}.

(** Evaluating a dictionary display makes a new object and returns it. *)
Definition new_dict (d : dict) : Py loc := fun w =>
  (Returns (length (heap w)), alloc d w).

(** [hasattr(obj, 'ui')], for [obj] the value of [self.api]. *)
Definition hasattr_ui (obj : option PluginAPI) : bool :=
  match obj with
  | None => false
  | Some a => match ui a with NoAttribute => false | Attribute _ => true end
  end.

(** [obj.ui] *)
Definition getattr_ui (obj : option PluginAPI) : Py (option UI) :=
  match obj with
  | None => raise (AttributeError "ui")
  | Some a =>
      match ui a with
      | NoAttribute => raise (AttributeError "ui")
      | Attribute v => mret v
      end
  end.

(** The truth value of [obj.ui]: [None] is false, and a UI object is an
    ordinary instance, which is true. *)
Definition truthy (v : option UI) : bool :=
  match v with None => false | Some _ => true end.

(** [v.show_notification(title=..., message=..., type=...)] *)
Definition call_show_notification (v : option UI)
    (title message type : string) : Py unit :=
  match v with
  | None => raise (AttributeError "show_notification")
  | Some u =>
      emit (ShowNotification title message type);;
      match show_notification u title message type with
      | None => mret tt
      | Some e => raise e
      end
  end.

(** ** The methods of [HelloWorldPlugin] *)

(** The attributes [__init__] assigns.  The base class initialiser runs
    first, so whatever it does to these three attributes is overwritten. *)
Definition __init__ : HelloWorldPlugin :=
  {| name := "Hello World Plugin"; version := "1.0.0"; api := None |}.

Definition activate : Py unit :=
  n ← getattr_self name;
  v ← getattr_self version;
  print (n +:+ " v" +:+ v +:+ " activated!");;
  a ← getattr_self api;
  if hasattr_ui a then
    a ← getattr_self api;
    u ← getattr_ui a;
    if truthy u then
      a ← getattr_self api;
      u ← getattr_ui a;
      call_show_notification u
        "Hello World Plugin" "Plugin successfully loaded!" "success"
    else mret tt
  else mret tt.

Definition deactivate : Py unit :=
  n ← getattr_self name;
  v ← getattr_self version;
  print (n +:+ " v" +:+ v +:+ " deactivated!").

Definition get_metadata : Py loc :=
  n ← getattr_self name;
  v ← getattr_self version;
  new_dict (dict_display
    [ ("name", VStr n);
      ("version", VStr v);
      ("description", VStr "A simple demonstration plugin");
      ("author", VStr "Smart File Manager Team") ]).

(** [file_path] is a [str]. *)
Definition process_file (file_path : string) : Py loc :=
  found ← os_path_exists file_path;
  if negb found then
    new_dict (dict_display [ ("error", VStr "File not found") ])
  else
    file_size ← os_path_getsize file_path;
    new_dict (dict_display
      [ ("message", VStr ("Hello from plugin! Processed file: " +:+ file_path));
        ("file_size", VInt file_size);
        ("processed_at", VStr "now") ]).

(** ** The host's side *)

(** The host stores the API object in the attribute [api]. *)
Definition inject_api (a : PluginAPI) (w : World) : World :=
  {| self := {| name := name (self w); version := version (self w);
                api := Some a |};
     files := files w; heap := heap w; trace := trace w |}.

(** The methods a host can call, and the world a call leaves behind,
    whether it returned or raised. *)
Inductive method : Type :=
| Activate
| Deactivate
| GetMetadata
| ProcessFile (file_path : string).

Definition call (m : method) (w : World) : World :=
  match m with
  | Activate => (activate w).2
  | Deactivate => (deactivate w).2
  | GetMetadata => (get_metadata w).2
  | ProcessFile file_path => (process_file file_path w).2
  end.

Definition calls (ms : list method) (w : World) : World :=
  foldl (fun w m => call m w) w ms.

(** A plugin that has just been constructed, in some surrounding world. *)
Definition constructed (fs : gmap string Z) (h : list dict)
    (t : list event) : World :=
  {| self := __init__; files := fs; heap := h; trace := t |}.

(** One thing the host does with the plugin. *)
Inductive host_step : World -> World -> Prop :=
| host_inject a w : host_step w (inject_api a w)
| host_call m w : host_step w (call m w).

(** A host whose notifications work, and one whose notifications fail. *)
Definition working_ui : UI := {| show_notification := fun _ _ _ => None |}.
Definition failing_ui : UI :=
  {| show_notification := fun _ _ _ => Some (HostError "no display") |}.

(** ** Reading a run *)

(** The UI capability of the value of [self.api], if it has one. *)
Definition ui_capability (obj : option PluginAPI) : option UI :=
  match obj with
  | None => None
  | Some a => match ui a with NoAttribute => None | Attribute v => v end
  end.

(** The events of [w'] that were not there yet in [w]. *)
Definition emitted (w w' : World) : list event :=
  drop (length (trace w)) (trace w').

(** The notifications requested in a list of events, with the arguments
    [title], [message] and [type] of each request. *)
Definition notification (e : event) : option (string * string * string) :=
  match e with
  | Print _ => None
  | ShowNotification title message type => Some (title, message, type)
  end.

Definition notifications (t : list event) : list (string * string * string) :=
  omap notification t.

(** [sub] occurs in [s]. *)
Definition contains (s sub : string) : Prop :=
  exists before after, s = before +:+ sub +:+ after.

(** The value under [key] in the dictionary a call has returned, if the
    call returned one and the key is in it. *)
Definition result_field (key : string) (r : outcome loc * World)
    : option pyval :=
  match r.1 with
  | Returns l => heap r.2 !! l ≫= (.!! key)
  | Raises _ => None
  end.

(** How many of the calls are calls of [activate], and how many are calls
    of a method that returns a dictionary. *)
Definition is_activate (m : method) : bool :=
  match m with Activate => true | _ => false end.

Definition returns_dict (m : method) : bool :=
  match m with GetMetadata | ProcessFile _ => true | _ => false end.

Definition activations (ms : list method) : nat :=
  length (List.filter is_activate ms).

Definition dicts_returned (ms : list method) : nat :=
  length (List.filter returns_dict ms).

(** * What the methods compute *)

(** The dictionaries the methods build, key by key. *)
Definition metadata_of (s : HelloWorldPlugin) : dict :=
  {[ "name" := VStr (name s);
     "version" := VStr (version s);
     "description" := VStr "A simple demonstration plugin";
     "author" := VStr "Smart File Manager Team" ]}.

Definition not_found : dict := {[ "error" := VStr "File not found" ]}.

Definition processed (file_path : string) (size : Z) : dict :=
  {[ "message" := VStr ("Hello from plugin! Processed file: " +:+ file_path);
     "file_size" := VInt size;
     "processed_at" := VStr "now" ]}.

(** The events of a run of [activate]: the line it prints and the
    notification it asks for. *)
Definition activated (s : HelloWorldPlugin) : event :=
  Print (name s +:+ " v" +:+ version s +:+ " activated!").

Definition welcome : event :=
  ShowNotification "Hello World Plugin" "Plugin successfully loaded!" "success".

Ltac run :=
  unfold mbind, mret, Py_bind, Py_ret, getattr_self, print, emit, new_dict,
    os_path_exists, os_path_getsize, raise; simpl.

Lemma dict_display_metadata s :
  dict_display
    [ ("name", VStr (name s)); ("version", VStr (version s));
      ("description", VStr "A simple demonstration plugin");
      ("author", VStr "Smart File Manager Team") ] = metadata_of s.
Proof.
  unfold dict_display, metadata_of; simpl.
  apply map_eq; intros k.
  destruct (decide (k = "author")) as [->|]; [done|].
  destruct (decide (k = "description")) as [->|]; [done|].
  destruct (decide (k = "version")) as [->|]; [done|].
  destruct (decide (k = "name")) as [->|]; [done|].
  by simplify_map_eq.
Qed.

Lemma dict_display_processed file_path size :
  dict_display
    [ ("message", VStr ("Hello from plugin! Processed file: " +:+ file_path));
      ("file_size", VInt size); ("processed_at", VStr "now") ]
  = processed file_path size.
Proof.
  unfold dict_display, processed; simpl.
  apply map_eq; intros k.
  destruct (decide (k = "processed_at")) as [->|]; [done|].
  destruct (decide (k = "file_size")) as [->|]; [done|].
  destruct (decide (k = "message")) as [->|]; [done|].
  by simplify_map_eq.
Qed.

Lemma get_metadata_run w :
  get_metadata w = (Returns (length (heap w)), alloc (metadata_of (self w)) w).
Proof. unfold get_metadata; run. by rewrite dict_display_metadata. Qed.

Lemma deactivate_run w :
  deactivate w =
    (Returns tt,
     log (Print (name (self w) +:+ " v" +:+ version (self w)
                 +:+ " deactivated!")) w).
Proof. reflexivity. Qed.

Lemma process_file_missing file_path w :
  files w !! file_path = None ->
  process_file file_path w = (Returns (length (heap w)), alloc not_found w).
Proof. intros E. unfold process_file; run. by rewrite E. Qed.

Lemma process_file_found file_path size w :
  files w !! file_path = Some size ->
  process_file file_path w =
    (Returns (length (heap w)), alloc (processed file_path size) w).
Proof.
  intros E. unfold process_file; run. rewrite E; simpl. rewrite E.
  by rewrite dict_display_processed.
Qed.

Lemma activate_without_ui w :
  ui_capability (api (self w)) = None ->
  activate w = (Returns tt, log (activated (self w)) w).
Proof.
  destruct w as [[n v [[[|[u|]]]|]] fs h t]; simpl; done.
Qed.

Lemma activate_with_ui u w :
  ui_capability (api (self w)) = Some u ->
  activate w =
    (match show_notification u "Hello World Plugin"
             "Plugin successfully loaded!" "success" with
     | None => Returns tt
     | Some e => Raises e
     end,
     log welcome (log (activated (self w)) w)).
Proof.
  destruct w as [[n v [[[|[u'|]]]|]] fs h t]; simpl; try done.
  intros [= ->]. unfold activate, call_show_notification; run.
  by destruct (show_notification u _ _ _).
Qed.

(** ** Some runs *)

Example activate_fresh :
  activate (constructed ∅ [] []) =
    (Returns tt,
     constructed ∅ [] [Print "Hello World Plugin v1.0.0 activated!"]).
Proof. reflexivity. Qed.

Example activate_ui_is_none :
  (activate (inject_api {| ui := Attribute None |} (constructed ∅ [] []))).1
    = Returns tt.
Proof. reflexivity. Qed.

Example activate_working_ui :
  let w := inject_api {| ui := Attribute (Some working_ui) |}
             (constructed ∅ [] []) in
  (activate w).1 = Returns tt /\
  trace (activate w).2 =
    [Print "Hello World Plugin v1.0.0 activated!"; welcome].
Proof. split; reflexivity. Qed.

Example activate_failing_ui :
  let w := inject_api {| ui := Attribute (Some failing_ui) |}
             (constructed ∅ [] []) in
  (activate w).1 = Raises (HostError "no display") /\
  trace (activate w).2 =
    [Print "Hello World Plugin v1.0.0 activated!"; welcome].
Proof. split; reflexivity. Qed.

Example process_file_absent :
  let w := constructed {[ "a.txt" := 5%Z ]} [] [] in
  (process_file "b.txt" w).1 = Returns 0 /\
  heap (process_file "b.txt" w).2 = [not_found].
Proof. split; reflexivity. Qed.

Example process_file_present :
  let w := constructed {[ "a.txt" := 5%Z ]} [] [] in
  (process_file "a.txt" w).1 = Returns 0 /\
  heap (process_file "a.txt" w).2 !! 0 ≫= (.!! "message")
    = Some (VStr "Hello from plugin! Processed file: a.txt") /\
  heap (process_file "a.txt" w).2 !! 0 ≫= (.!! "file_size")
    = Some (VInt 5).
Proof. repeat split; reflexivity. Qed.

(** ** Frames and traces *)

Lemma alloc_lookup d w : heap (alloc d w) !! length (heap w) = Some d.
Proof. simpl. by apply list_lookup_middle. Qed.

Lemma heap_fresh w : heap w !! length (heap w) = None.
Proof. by apply lookup_ge_None_2. Qed.

Lemma emitted_log e w : emitted w (log e w) = [e].
Proof. unfold emitted; simpl. by rewrite drop_app_length. Qed.

Lemma emitted_log2 e1 e2 w : emitted w (log e2 (log e1 w)) = [e1; e2].
Proof. unfold emitted; simpl. by rewrite <- app_assoc, drop_app_length. Qed.

Lemma emitted_alloc d w : emitted w (alloc d w) = [].
Proof. unfold emitted; simpl. by rewrite drop_all. Qed.

(** A run of [activate] is one of two. *)
Lemma activate_cases w :
  (ui_capability (api (self w)) = None /\
   activate w = (Returns tt, log (activated (self w)) w)) \/
  (exists u r, ui_capability (api (self w )) = Some u /\
     activate w = (r, log welcome (log (activated (self w)) w))).
Proof.
  destruct (ui_capability (api (self w))) as [u|] eqn:E.
  - right. eexists u, _. split; [done|]. by apply activate_with_ui.
  - left. split; [done|]. by apply activate_without_ui.
Qed.

(** A run of [process_file] is one of two. *)
Lemma process_file_cases file_path w :
  (files w !! file_path = None /\
   process_file file_path w =
     (Returns (length (heap w)), alloc not_found w)) \/
  (exists size, files w !! file_path = Some size /\
     process_file file_path w =
       (Returns (length (heap w)), alloc (processed file_path size) w)).
Proof.
  destruct (files w !! file_path) as [size|] eqn:E.
  - right. exists size. split; [done|]. by apply process_file_found.
  - left. split; [done|]. by apply process_file_missing.
Qed.

(** No method assigns to an attribute of [self] or touches a file. *)
Lemma call_self m w : self (call m w) = self w.
Proof.
  destruct m as [| | |p]; unfold call.
  - by destruct (activate_cases w) as [[_ ->]|(u & r & _ & ->)].
  - by rewrite deactivate_run.
  - by rewrite get_metadata_run.
  - by destruct (process_file_cases p w) as [[_ ->]|(size & _ & ->)].
Qed.

Lemma call_files m w : files (call m w) = files w.
Proof.
  destruct m as [| | |p]; unfold call.
  - by destruct (activate_cases w) as [[_ ->]|(u & r & _ & ->)].
  - by rewrite deactivate_run.
  - by rewrite get_metadata_run.
  - by destruct (process_file_cases p w) as [[_ ->]|(size & _ & ->)].
Qed.

Lemma calls_self ms w : self (calls ms w) = self w.
Proof.
  revert w. induction ms as [|m ms IH]; intros w; [done|].
  simpl. change (self (calls ms (call m w)) = self w).
  by rewrite IH, call_self.
Qed.

(** However the host drives the plugin, the name and the version it was
    constructed with stay. *)
Lemma host_steps_keep_name_version w w' :
  rtc host_step w w' ->
  name (self w') = name (self w) /\ version (self w') = version (self w).
Proof.
  induction 1 as [|w w1 w2 Hstep _ [IHn IHv]]; [done|].
  rewrite IHn, IHv. destruct Hstep as [a w|m w]; [done|].
  by rewrite call_self.
Qed.

(** While the plugin has no UI capability, a call adds no notification. *)
Lemma call_quiet m w :
  ui_capability (api (self w)) = None ->
  exists es, trace (call m w) = trace w ++ es /\ notifications es = [].
Proof.
  intros E. destruct m as [| | |p]; unfold call.
  - rewrite (activate_without_ui w E). by eexists [_].
  - rewrite deactivate_run. by eexists [_].
  - rewrite get_metadata_run. exists []. by rewrite app_nil_r.
  - exists []. rewrite app_nil_r.
    by destruct (process_file_cases p w) as [[_ ->]|(size & _ & ->)].
Qed.

Lemma notifications_app t1 t2 :
  notifications (t1 ++ t2) = notifications t1 ++ notifications t2.
Proof. apply omap_app. Qed.

Lemma calls_quiet ms w :
  ui_capability (api (self w)) = None ->
  exists es, trace (calls ms w) = trace w ++ es /\ notifications es = [].
Proof.
  revert w. induction ms as [|m ms IH]; intros w E.
  - exists []. by rewrite app_nil_r.
  - change (calls (m :: ms) w) with (calls ms (call m w)).
    destruct (call_quiet m w E) as (es1 & T1 & N1).
    destruct (IH (call m w)) as (es2 & T2 & N2).
    { by rewrite call_self. }
    exists (es1 ++ es2). split.
    + by rewrite T2, T1, app_assoc.
    + by rewrite notifications_app, N1, N2.
Qed.

(** * The stated properties *)

(** ** [get_metadata] *)

Lemma metadata_of_dom s :
  dom (metadata_of s) = {[ "name"; "version"; "description"; "author" ]}.
Proof.
  unfold metadata_of. rewrite !dom_insert_L, dom_singleton_L. set_solver.
Qed.

(** C1, the claim as it is written ("for every plugin state ... holding the
    literal values") does not hold: [get_metadata] reads the name and the
    version from the attributes of the object, so a plugin whose [name] and
    [version] have been assigned other values reports those. *)
Lemma get_metadata_reports_attributes :
  let w := {| self := {| name := "Renamed"; version := "2.0"; api := None |};
              files := ∅; heap := []; trace := [] |} in
  (exists w' d,
     get_metadata w = (Returns 0, w') /\ heap w' !! 0 = Some d /\
     d !! "name" = Some (VStr "Renamed") /\
     d !! "version" = Some (VStr "2.0")) /\
  ~ (exists l w' d,
       get_metadata w = (Returns l, w') /\ heap w' !! l = Some d /\
       d !! "name" = Some (VStr "Hello World Plugin") /\
       d !! "version" = Some (VStr "1.0.0")).
Proof.
  intros w. split.
  - eexists _, _. rewrite get_metadata_run. by repeat split.
  - intros (l & w' & d & R & L & N & _).
    rewrite get_metadata_run in R. injection R as <- <-.
    simpl in L. injection L as <-. by vm_compute in N.
Qed.

(** C1, amended: for every plugin state whose [name] and [version] are the
    ones the constructor assigned, [get_metadata] returns a record with
    exactly the four string fields name, version, description and author,
    holding "Hello World Plugin", "1.0.0", "A simple demonstration plugin"
    and "Smart File Manager Team". *)
Theorem get_metadata_constructor_values w :
  name (self w) = "Hello World Plugin" ->
  version (self w) = "1.0.0" ->
  exists l w' d,
    get_metadata w = (Returns l, w') /\ heap w' !! l = Some d /\
    dom d = {[ "name"; "version"; "description"; "author" ]} /\
    d !! "name" = Some (VStr "Hello World Plugin") /\
    d !! "version" = Some (VStr "1.0.0") /\
    d !! "description" = Some (VStr "A simple demonstration plugin") /\
    d !! "author" = Some (VStr "Smart File Manager Team").
Proof.
  intros N V. eexists _, _, _. rewrite get_metadata_run.
  split; [done|]. split; [apply alloc_lookup|].
  split; [apply metadata_of_dom|].
  unfold metadata_of. rewrite N, V. by repeat split.
Qed.

Lemma get_metadata_constructor_values_witness :
  exists l w' d,
    get_metadata (constructed {[ "a.txt" := 5%Z ]} [] []) = (Returns l, w') /\
    heap w' !! l = Some d /\
    dom d = {[ "name"; "version"; "description"; "author" ]} /\
    d !! "name" = Some (VStr "Hello World Plugin") /\
    d !! "version" = Some (VStr "1.0.0") /\
    d !! "description" = Some (VStr "A simple demonstration plugin") /\
    d !! "author" = Some (VStr "Smart File Manager Team").
Proof.
  apply (get_metadata_constructor_values
           (constructed {[ "a.txt" := 5%Z ]} [] [])); reflexivity.
Defined.

(** The states of the amended C1 are all the host can reach from a plugin
    it has constructed by storing API objects and calling methods. *)
Lemma reachable_constructor_values fs h t w :
  rtc host_step (constructed fs h t) w ->
  name (self w) = "Hello World Plugin" /\ version (self w) = "1.0.0".
Proof. intros R. by destruct (host_steps_keep_name_version _ _ R) as [-> ->]. Qed.

(** C7: [get_metadata] changes no attribute of the plugin, no file and
    nothing of the trace, it does not raise, and every call allocates a new
    record, leaving the older ones as they were; two calls in a row return
    two different objects that hold equal records. *)
Theorem get_metadata_pure w :
  exists l1 l2 d w1 w2,
    get_metadata w = (Returns l1, w1) /\
    get_metadata w1 = (Returns l2, w2) /\
    self w1 = self w /\ files w1 = files w /\ trace w1 = trace w /\
    heap w !! l1 = None /\ heap w1 = heap w ++ [d] /\
    l1 <> l2 /\ heap w2 !! l1 = Some d /\ heap w2 !! l2 = Some d.
Proof.
  exists (length (heap w)), (length (heap w ++ [metadata_of (self w)])),
    (metadata_of (self w)), (alloc (metadata_of (self w)) w),
    (alloc (metadata_of (self w)) (alloc (metadata_of (self w)) w)).
  rewrite !get_metadata_run. repeat split.
  - apply heap_fresh.
  - rewrite length_app; simpl; lia.
  - simpl. rewrite lookup_app_l by (rewrite length_app; simpl; lia).
    by apply list_lookup_middle.
  - simpl. by apply list_lookup_middle.
Qed.

(** ** [process_file] *)

Lemma processed_dom file_path size :
  dom (processed file_path size) = {[ "message"; "file_size"; "processed_at" ]}.
Proof.
  unfold processed. rewrite !dom_insert_L, dom_singleton_L. set_solver.
Qed.

Lemma not_found_dom : dom not_found = {[ "error" ]}.
Proof. apply dom_singleton_L. Qed.

Lemma append_empty (s : string) : s +:+ "" = s.
Proof.
  induction s as [|c s IH]; [done|].
  change (String c (s +:+ "") = String c s). by rewrite IH.
Qed.

Lemma processed_not_error file_path size :
  processed file_path size <> {[ "error" := VStr "File not found" ]}.
Proof.
  intros E. apply (f_equal (lookup "processed_at")) in E.
  by vm_compute in E.
Qed.

(** C2: [process_file] always returns, never raises, and what it returns is
    the record [{"error": "File not found"}] exactly when the path does not
    exist. *)
Theorem process_file_error_iff_missing file_path w :
  exists l w' d,
    process_file file_path w = (Returns l, w') /\
    heap w' !! l = Some d /\
    (d = {[ "error" := VStr "File not found" ]} <->
     files w !! file_path = None).
Proof.
  destruct (process_file_cases file_path w) as [[E ->]|(size & E & ->)].
  - eexists _, _, _. split; [done|]. split; [apply alloc_lookup|]. done.
  - eexists _, _, _. split; [done|]. split; [apply alloc_lookup|].
    rewrite E. split; [|done].
    intros D. by destruct (processed_not_error file_path size).
Qed.

(** C3: for a path that exists with size [size], [process_file] returns a
    record whose [file_size] is [size], whose [message] is a string in which
    the path occurs, and whose [processed_at] is the placeholder string
    "now". *)
Theorem process_file_existing file_path size w :
  files w !! file_path = Some size ->
  exists l w' d msg,
    process_file file_path w = (Returns l, w') /\
    heap w' !! l = Some d /\
    d !! "file_size" = Some (VInt size) /\
    d !! "message" = Some (VStr msg) /\ contains msg file_path /\
    d !! "processed_at" = Some (VStr "now").
Proof.
  intros E. rewrite (process_file_found _ _ _ E).
  eexists _, _, _, _. split; [done|]. split; [apply alloc_lookup|].
  repeat split.
  exists "Hello from plugin! Processed file: ", "".
  by rewrite append_empty.
Qed.

Lemma process_file_existing_witness :
  files (constructed {[ "a.txt" := 5%Z ]} [] []) !! "a.txt" = Some 5%Z /\
  exists l w' d msg,
    process_file "a.txt" (constructed {[ "a.txt" := 5%Z ]} [] [])
      = (Returns l, w') /\
    heap w' !! l = Some d /\
    d !! "file_size" = Some (VInt 5) /\
    d !! "message" = Some (VStr msg) /\ contains msg "a.txt" /\
    d !! "processed_at" = Some (VStr "now").
Proof.
  split; [reflexivity|].
  apply (process_file_existing "a.txt" 5
           (constructed {[ "a.txt" := 5%Z ]} [] [])).
  reflexivity.
Defined.

(** C9: [process_file] leaves [name], [version] and [api] as they were,
    whether the path exists or not. *)
Theorem process_file_keeps_plugin file_path w :
  let w' := (process_file file_path w).2 in
  name (self w') = name (self w) /\
  version (self w') = version (self w) /\
  api (self w') = api (self w).
Proof.
  by destruct (process_file_cases file_path w) as [[_ ->]|(size & _ & ->)].
Qed.

(** C10: the record [process_file] returns has either the one key "error",
    when the path does not exist, or exactly the keys "message",
    "file_size" and "processed_at", when it does; the two key sets share no
    key, so the key "error" is in the record exactly when the call failed. *)
Theorem process_file_keys file_path w :
  exists l w' d,
    process_file file_path w = (Returns l, w') /\
    heap w' !! l = Some d /\
    ((files w !! file_path = None /\ dom d = {[ "error" ]}) \/
     (is_Some (files w !! file_path) /\
      dom d = {[ "message"; "file_size"; "processed_at" ]} /\
      "error" ∉ dom d)) /\
    ("error" ∈ dom d <-> files w !! file_path = None) /\
    ({[ "message"; "file_size"; "processed_at" ]} : gset string)
      ## {[ "error" ]}.
Proof.
  destruct (process_file_cases file_path w) as [[E ->]|(size & E & ->)].
  - eexists _, _, _. split; [done|]. split; [apply alloc_lookup|].
    rewrite not_found_dom. split; [by left|]. split; set_solver.
  - eexists _, _, _. split; [done|]. split; [apply alloc_lookup|].
    rewrite processed_dom, E. split; [|split].
    + right. split; [done|]. split; [done|]. set_solver.
    + split; [set_solver|done].
    + set_solver.
Qed.

(** ** [activate] and [deactivate] *)

(** C4: when the value of [self.api] has no UI capability ([api] is still
    [None], the API object has no attribute [ui], or its [ui] is [None]),
    [activate] returns and does not raise. *)
Theorem activate_without_ui_returns w :
  ui_capability (api (self w)) = None ->
  exists w', activate w = (Returns tt, w').
Proof. intros E. rewrite (activate_without_ui w E). by eexists. Qed.

Lemma activate_without_ui_returns_witness :
  (ui_capability (api (self (constructed ∅ [] []))) = None /\
   exists w', activate (constructed ∅ [] []) = (Returns tt, w')) /\
  (ui_capability
     (api (self (inject_api {| ui := NoAttribute |} (constructed ∅ [] []))))
     = None /\
   exists w', activate (inject_api {| ui := NoAttribute |} (constructed ∅ [] []))
              = (Returns tt, w')).
Proof.
  split; (split; [reflexivity|]).
  - apply (activate_without_ui_returns (constructed ∅ [] [])). reflexivity.
  - apply (activate_without_ui_returns
             (inject_api {| ui := NoAttribute |} (constructed ∅ [] []))).
    reflexivity.
Defined.

(** C5: [activate] asks the UI capability for one notification, with title
    "Hello World Plugin", message "Plugin successfully loaded!" and type
    "success", exactly when the API object has a UI capability; when it has
    none, no notification is requested and the call returns normally.
    Nothing else is ever requested. *)
Theorem activate_notification_iff_ui w :
  let requested := notifications (emitted w (activate w).2) in
  (requested =
     [("Hello World Plugin", "Plugin successfully loaded!", "success")] <->
   is_Some (ui_capability (api (self w)))) /\
  (ui_capability (api (self w)) = None ->
   requested = [] /\ (activate w).1 = Returns tt) /\
  (requested = [] \/
   requested =
     [("Hello World Plugin", "Plugin successfully loaded!", "success")]).
Proof.
  destruct (activate_cases w) as [[E ->]|(u & r & E & ->)]; rewrite E; simpl.
  - rewrite emitted_log. split; [|split].
    + split; [done|]. by intros [? ?].
    + done.
    + by left.
  - rewrite emitted_log2. split; [|split].
    + split; [|done]. by eexists.
    + done.
    + by right.
Qed.

(** C6: [deactivate] prints one line and that is all: it returns [None],
    the attributes [name], [version] and [api] are what they were, so are
    the files and the heap, and the line is the only event, so no
    collaborator has been called. *)
Theorem deactivate_only_logs w :
  let w' := (deactivate w).2 in
  (deactivate w).1 = Returns tt /\
  name (self w') = name (self w) /\
  version (self w') = version (self w) /\
  api (self w') = api (self w) /\
  files w' = files w /\ heap w' = heap w /\
  emitted w w' =
    [Print (name (self w) +:+ " v" +:+ version (self w) +:+ " deactivated!")].
Proof. rewrite deactivate_run. simpl. by rewrite emitted_log. Qed.

(** C8: a plugin that has just been constructed has [api = None], and as
    long as the host only calls methods and stores no API object, [api]
    stays [None] and no call, [activate] included, requests a
    notification. *)
Theorem fresh_plugin_never_notifies fs h t ms :
  api __init__ = None /\
  let w := calls ms (constructed fs h t) in
  api (self w) = None /\
  notifications (emitted w (activate w).2) = [] /\
  notifications (emitted (constructed fs h t) (activate w).2) = [].
Proof.
  split; [done|]. intros w.
  assert (S : self w = __init__) by apply calls_self.
  assert (E : ui_capability (api (self w)) = None) by by rewrite S.
  split; [by rewrite S|].
  rewrite (activate_without_ui w E); simpl. split.
  - by rewrite emitted_log.
  - destruct (calls_quiet ms (constructed fs h t)) as (es & T & N); [done|].
    unfold emitted; simpl. fold w in T. rewrite T; simpl.
    rewrite <- app_assoc, drop_app_length, notifications_app, N. done.
Qed.

(** * Further properties of the methods *)

Lemma emitted_app w w' es : trace w' = trace w ++ es -> emitted w w' = es.
Proof. intros T. unfold emitted. by rewrite T, drop_app_length. Qed.

Lemma calls_cons m ms w : calls (m :: ms) w = calls ms (call m w).
Proof. reflexivity. Qed.

Lemma calls_files ms w : files (calls ms w) = files w.
Proof.
  revert w. induction ms as [|m ms IH]; intros w; [done|].
  by rewrite calls_cons, IH, call_files.
Qed.

(** What one call adds to the trace and to the heap. *)
Lemma call_trace m w :
  exists es,
    trace (call m w) = trace w ++ es /\
    notifications es =
      match ui_capability (api (self w)) with
      | Some _ =>
          if is_activate m then
            [("Hello World Plugin", "Plugin successfully loaded!", "success")]
          else []
      | None => []
      end.
Proof.
  destruct (ui_capability (api (self w))) as [u|] eqn:E.
  - destruct m as [| | |p]; unfold call.
    + rewrite (activate_with_ui u w E); simpl.
      eexists [_; _]. by rewrite <- app_assoc.
    + rewrite deactivate_run. by eexists [_].
    + rewrite get_metadata_run. exists []. by rewrite app_nil_r.
    + exists []. rewrite app_nil_r.
      by destruct (process_file_cases p w) as [[_ ->]|(size & _ & ->)].
  - destruct (call_quiet m w E) as (es & T & N). by exists es.
Qed.

Lemma call_heap m w :
  exists ds,
    heap (call m w) = heap w ++ ds /\
    length ds = if returns_dict m then 1 else 0.
Proof.
  destruct m as [| | |p]; unfold call.
  - exists []. rewrite app_nil_r.
    by destruct (activate_cases w) as [[_ ->]|(u & r & _ & ->)].
  - exists []. by rewrite app_nil_r, deactivate_run.
  - rewrite get_metadata_run. by eexists [_].
  - destruct (process_file_cases p w) as [[_ ->]|(size & _ & ->)];
      by eexists [_].
Qed.

(** ** [activate] *)

(** X1: [activate] assigns to no attribute of the plugin, changes no file
    and allocates no dictionary, whether it returns or raises. *)
Theorem activate_frame w :
  let w' := (activate w).2 in
  name (self w') = name (self w) /\
  version (self w') = version (self w) /\
  api (self w') = api (self w) /\
  files w' = files w /\ heap w' = heap w.
Proof. by destruct (activate_cases w) as [[_ ->]|(u & r & _ & ->)]. Qed.

(** X2: [activate] does not catch what the host's [show_notification]
    raises.  With a UI capability, the call returns [None] when the host's
    operation returns and raises the host's exception when it raises; in
    both cases the line has been printed and the request made by then. *)
Theorem activate_outcome_is_the_hosts u w :
  ui_capability (api (self w)) = Some u ->
  (activate w).1 =
    match show_notification u "Hello World Plugin"
            "Plugin successfully loaded!" "success" with
    | None => Returns tt
    | Some e => Raises e
    end /\
  emitted w (activate w).2 =
    [Print (name (self w) +:+ " v" +:+ version (self w) +:+ " activated!");
     ShowNotification "Hello World Plugin" "Plugin successfully loaded!"
       "success"].
Proof.
  intros E. rewrite (activate_with_ui u w E); simpl.
  split; [done|]. apply emitted_log2.
Qed.

Lemma activate_outcome_is_the_hosts_witness :
  let w := inject_api {| ui := Attribute (Some failing_ui) |}
             (constructed ∅ [] []) in
  ui_capability (api (self w)) = Some failing_ui /\
  (activate w).1 = Raises (HostError "no display") /\
  emitted w (activate w).2 =
    [Print "Hello World Plugin v1.0.0 activated!";
     ShowNotification "Hello World Plugin" "Plugin successfully loaded!"
       "success"].
Proof.
  intros w. split; [reflexivity|].
  apply (activate_outcome_is_the_hosts failing_ui w). reflexivity.
Defined.

(** X3: [activate] prints one line, made of the current values of [name]
    and [version], and prints it first: a notification, if one is
    requested, comes after the line, and nothing else is emitted. *)
Theorem activate_prints_first w :
  exists rest,
    emitted w (activate w).2 =
      Print (name (self w) +:+ " v" +:+ version (self w) +:+ " activated!")
      :: rest /\
    (rest = [] \/
     rest = [ShowNotification "Hello World Plugin"
               "Plugin successfully loaded!" "success"]).
Proof.
  destruct (activate_cases w) as [[_ ->]|(u & r & _ & ->)]; simpl.
  - exists []. rewrite emitted_log. split; [done|by left].
  - eexists [_]. rewrite emitted_log2. split; [done|by right].
Qed.

(** ** [get_metadata] *)

(** X4: in every state, the record [get_metadata] returns has exactly the
    keys name, version, description and author; name and version hold the
    current values of the attributes [name] and [version], description and
    author the two fixed strings. *)
Theorem get_metadata_follows_attributes w :
  exists l w' d,
    get_metadata w = (Returns l, w') /\ heap w' !! l = Some d /\
    dom d = {[ "name"; "version"; "description"; "author" ]} /\
    d !! "name" = Some (VStr (name (self w))) /\
    d !! "version" = Some (VStr (version (self w))) /\
    d !! "description" = Some (VStr "A simple demonstration plugin") /\
    d !! "author" = Some (VStr "Smart File Manager Team").
Proof.
  eexists _, _, _. rewrite get_metadata_run.
  split; [done|]. split; [apply alloc_lookup|].
  split; [apply metadata_of_dom|]. by repeat split.
Qed.

(** ** [process_file] *)


Lemma alloc_twice d w :
  length (heap w) <> length (heap (alloc d w)) /\
  heap (alloc d (alloc d w)) !! length (heap w) = Some d /\
  heap (alloc d (alloc d w)) !! length (heap (alloc d w)) = Some d.
Proof.
  simpl. split; [rewrite length_app; simpl; lia|]. split.
  - rewrite lookup_app_l by (rewrite length_app; simpl; lia).
    by apply list_lookup_middle.
  - by apply list_lookup_middle.
Qed.

(** X6: [process_file] can be repeated: two calls in a row with the same
    path return two different objects that hold equal records. *)
Theorem process_file_twice file_path w :
  exists l1 l2 d w1 w2,
    process_file file_path w = (Returns l1, w1) /\
    process_file file_path w1 = (Returns l2, w2) /\
    l1 <> l2 /\ heap w2 !! l1 = Some d /\ heap w2 !! l2 = Some d.
Proof.
  destruct (process_file_cases file_path w) as [[E R]|(size & E & R)].
  - exists (length (heap w)), (length (heap (alloc not_found w))), not_found,
      (alloc not_found w), (alloc not_found (alloc not_found w)).
    split; [exact R|].
    split; [exact (process_file_missing file_path (alloc not_found w) E)|].
    apply alloc_twice.
  - set (d := processed file_path size) in *.
    exists (length (heap w)), (length (heap (alloc d w))), d,
      (alloc d w), (alloc d (alloc d w)).
    split; [exact R|].
    split; [exact (process_file_found file_path size (alloc d w) E)|].
    apply alloc_twice.
Qed.

Lemma result_field_found key file_path size w :
  files w !! file_path = Some size ->
  result_field key (process_file file_path w)
    = processed file_path size !! key.
Proof.
  intros E. rewrite (process_file_found _ _ _ E).
  unfold result_field. cbn [fst snd]. by rewrite alloc_lookup.
Qed.

(** X7: the message of a successful call tells the path: two successful
    calls, in whatever worlds, whose records have the same message were
    given the same path. *)
Theorem process_file_message_tells_path w1 w2 p1 p2 size1 size2 :
  files w1 !! p1 = Some size1 ->
  files w2 !! p2 = Some size2 ->
  result_field "message" (process_file p1 w1)
    = result_field "message" (process_file p2 w2) ->
  p1 = p2.
Proof.
  intros E1 E2. rewrite (result_field_found _ _ _ _ E1).
  rewrite (result_field_found _ _ _ _ E2).
  unfold processed. rewrite !lookup_insert_eq.
  intros [= M]. by apply (inj (String.append _)) in M.
Qed.

Lemma process_file_message_tells_path_witness :
  let w1 := constructed {[ "a.txt" := 5%Z ]} [] [] in
  let w2 := constructed {[ "a.txt" := 7%Z; "b.txt" := 0%Z ]} [∅] [] in
  files w1 !! "a.txt" = Some 5%Z /\
  files w2 !! "a.txt" = Some 7%Z /\
  result_field "message" (process_file "a.txt" w1)
    = result_field "message" (process_file "a.txt" w2) /\
  "a.txt" = "a.txt".
Proof.
  intros w1 w2. split; [reflexivity|]. split; [reflexivity|].
  split; [reflexivity|].
  apply (process_file_message_tells_path w1 w2 "a.txt" "a.txt" 5 7);
    reflexivity.
Defined.

Lemma result_field_missing key file_path w :
  files w !! file_path = None ->
  result_field key (process_file file_path w) = not_found !! key.
Proof.
  intros E. rewrite (process_file_missing _ _ E).
  unfold result_field. cbn [fst snd]. by rewrite alloc_lookup.
Qed.

(** X8: what [process_file] returns depends on the file alone: in two
    worlds that agree on whether the path exists and on its size, whatever
    the attributes of the plugin, the heap and the trace are, the returned
    records have the same value under every key. *)
Theorem process_file_depends_on_file_only file_path w1 w2 key :
  files w1 !! file_path = files w2 !! file_path ->
  result_field key (process_file file_path w1)
    = result_field key (process_file file_path w2).
Proof.
  intros E. destruct (files w2 !! file_path) as [size|] eqn:E2.
  - by rewrite (result_field_found _ _ _ _ E), (result_field_found _ _ _ _ E2).
  - by rewrite (result_field_missing _ _ _ E), (result_field_missing _ _ _ E2).
Qed.

Lemma process_file_depends_on_file_only_witness :
  let w1 := constructed {[ "a.txt" := 5%Z ]} [] [] in
  let w2 := inject_api {| ui := Attribute (Some working_ui) |}
              (constructed {[ "a.txt" := 5%Z; "b.txt" := 0%Z ]} [∅]
                 [Print "earlier"]) in
  files w1 !! "a.txt" = files w2 !! "a.txt" /\
  result_field "file_size" (process_file "a.txt" w1)
    = result_field "file_size" (process_file "a.txt" w2).
Proof.
  intros w1 w2. split; [reflexivity|].
  apply (process_file_depends_on_file_only "a.txt" w1 w2 "file_size").
  reflexivity.
Defined.

(** ** Sequences of calls *)

(** X9: no call assigns to an attribute of the plugin or changes a file:
    after any sequence of calls, some of which may have raised, [name],
    [version], [api] and the files are what they were. *)
Theorem calls_keep_plugin_and_files ms w :
  name (self (calls ms w)) = name (self w) /\
  version (self (calls ms w)) = version (self w) /\
  api (self (calls ms w)) = api (self w) /\
  files (calls ms w) = files w.
Proof. by rewrite calls_self, calls_files. Qed.

(** X10: [activate] keeps no record of having run.  Over any sequence of
    calls, the notifications requested are one per call of [activate] when
    the API object has a UI capability, each with the same three arguments
    and whether or not the host's operation raised, and none at all when it
    has no UI capability. *)
Theorem calls_notifications ms w :
  notifications (emitted w (calls ms w)) =
    match ui_capability (api (self w)) with
    | Some _ =>
        replicate (activations ms)
          ("Hello World Plugin", "Plugin successfully loaded!", "success")
    | None => []
    end.
Proof.
  assert (T : exists es,
    trace (calls ms w) = trace w ++ es /\
    notifications es =
      match ui_capability (api (self w)) with
      | Some _ =>
          replicate (activations ms)
            ("Hello World Plugin", "Plugin successfully loaded!", "success")
      | None => []
      end).
  { revert w. induction ms as [|m ms IH]; intros w.
    - exists []. rewrite app_nil_r. split; [done|].
      by destruct (ui_capability _).
    - rewrite calls_cons.
      destruct (call_trace m w) as (es1 & T1 & N1).
      destruct (IH (call m w)) as (es2 & T2 & N2).
      rewrite call_self in N2.
      exists (es1 ++ es2). split; [by rewrite T2, T1, app_assoc|].
      rewrite notifications_app, N1, N2.
      destruct (ui_capability _); [|done].
      unfold activations; simpl. by destruct (is_activate m). }
  destruct T as (es & T & N). by rewrite (emitted_app _ _ _ T).
Qed.

(** X11: a dictionary that has been returned is never changed afterwards.
    Over any sequence of calls the heap only grows at its end, by one
    dictionary per call of [get_metadata] or [process_file]. *)
Theorem calls_heap_grows ms w :
  exists ds,
    heap (calls ms w) = heap w ++ ds /\
    length ds = dicts_returned ms /\
    forall l d, heap w !! l = Some d -> heap (calls ms w) !! l = Some d.
Proof.
  assert (G : exists ds,
    heap (calls ms w) = heap w ++ ds /\ length ds = dicts_returned ms).
  { revert w. induction ms as [|m ms IH]; intros w.
    - exists []. by rewrite app_nil_r.
    - rewrite calls_cons.
      destruct (call_heap m w) as (ds1 & H1 & L1).
      destruct (IH (call m w)) as (ds2 & H2 & L2).
      exists (ds1 ++ ds2). split; [by rewrite H2, H1, app_assoc|].
      rewrite length_app, L1, L2. unfold dicts_returned; simpl.
      by destruct (returns_dict m). }
  destruct G as (ds & G & L). exists ds. split; [done|]. split; [done|].
  intros l d Hl. rewrite G. by apply lookup_app_l_Some.
Qed.
